(** * google-geoApi: the Lambda handler and the geomap client

    A shallow embedding of the two Go source files of the repository:
    - [geomap] (package geomap): the response schemas and the three
      outbound client functions [GetGeocode], [FindPlace], [PlaceNearby];
    - [getnearbylocation/main.go]: the API-gateway [Handler].

    The Go standard library and the upstream service are not part of the
    repository.  Network, URL parsing and JSON coding are collected in a
    record [World] that every function takes as an argument; the small pure
    helpers of net/url that the code calls ([Values.Add], [Values.Encode],
    [QueryEscape]) are written out.  Library calls with an observable
    effect are recorded in a trace of [Event]s. *)

From Stdlib Require Import ZArith String Ascii List.
From Stdlib Require Import Floats.PrimFloat.
From stdpp Require Import base option list sorting gmap strings fin_maps.

Local Open Scope string_scope.
Local Open Scope Z_scope.

(* ===================================================================== *)
(** ** Go values                                                          *)
(* ===================================================================== *)

Module Go.

(** [[]byte]: a Rocq string is a list of 8-bit characters. *)
Definition bytes := string.

(** [float64] is IEEE binary64, as Rocq's primitive floats. *)
Definition float64 := PrimFloat.float.

(** [int] (no arithmetic is done on it in this repository). *)
Definition int := Z.

(** The [error] interface.  [errors.New s] builds an [errorString];
    every other error value comes out of a library call and is kept
    opaque: [libError pkg msg]. *)
Inductive error : Type :=
| errorString (s : string)
| libError (pkg msg : string).

Definition errors_New (s : string) : error := errorString s.

(** [interface{}] as filled by encoding/json. *)
#[warnings="-register-all"]
Inductive any : Type :=
| any_nil
| any_bool (b : bool)
| any_float64 (f : float64)
| any_string (s : string)
| any_slice (l : list any)
| any_map (m : list (string * any)).

(** [m[k]] on a [map[string]string]: the zero value when [k] is absent
    (also on a nil map). *)
Definition index (m : gmap string string) (k : string) : string :=
  default "" (m !! k).

End Go.
Import Go.

(* ===================================================================== *)
(** ** aws-lambda-go events                                               *)
(* ===================================================================== *)

(** [events.APIGatewayProxyRequest]; the handler reads one field. *)
Record APIGatewayProxyRequest := {
  QueryStringParameters : gmap string string
}.

(** [events.APIGatewayProxyResponse]. *)
Record APIGatewayProxyResponse := {
  StatusCode : int;
  Headers : gmap string string;
  MultiValueHeaders : gmap string (list string);
  Body : string;
  IsBase64Encoded : bool
}.

(** The composite literal [events.APIGatewayProxyResponse{Body: b,
    StatusCode: c}]: the fields not named take their zero value. *)
Definition mkResponse (b : string) (c : int) : APIGatewayProxyResponse :=
  {| StatusCode := c; Headers := ∅; MultiValueHeaders := ∅;
     Body := b; IsBase64Encoded := false |}.

(* ===================================================================== *)
(** ** geomap: the response schemas                                       *)
(* ===================================================================== *)

(** Struct fields are named [Struct_Field]; a slice is a list (a nil
    slice and an empty one are both the empty list). *)

Record GoogleLocation := {
  GoogleLocation_Lat : float64;
  GoogleLocation_Lng : float64
}.

Record GoogleViewport := {
  GoogleViewport_Northeast : GoogleLocation;
  GoogleViewport_SouthWest : GoogleLocation
}.

Record GoogleGeometry := {
  GoogleGeometry_Location : GoogleLocation;
  GoogleGeometry_LocationType : string;
  GoogleGeometry_Viewport : GoogleViewport
}.

Record AddressComponent := {
  AddressComponent_LongName : string;
  AddressComponent_ShortName : string;
  AddressComponent_Types : list string
}.

Record GooglePlusCode := {
  GooglePlusCode_CompoundCode : string;
  GooglePlusCode_GlobalCode : string
}.

Record Photo := {
  Photo_Height : int;
  Photo_HTMLAttributions : list string;
  Photo_PhotoReference : string;
  Photo_Width : int
}.

Record Candidate := {
  Candidate_FormattedAddress : string;
  Candidate_Name : string;
  Candidate_Photos : list Photo;
  Candidate_Rating : int
}.

Record OpeningHour := {
  OpeningHour_OpenNow : bool
}.

(** The anonymous element struct of [GoogleGeocodeResponse.Results]. *)
Record GeocodeResult := {
  GeocodeResult_AddressComponents : list AddressComponent;
  GeocodeResult_FormattedAddress : string;
  GeocodeResult_Geometry : GoogleGeometry;
  GeocodeResult_PlaceID : string;
  GeocodeResult_PlusCode : GooglePlusCode;
  GeocodeResult_Types : list string
}.

Record GoogleGeocodeResponse := {
  GoogleGeocodeResponse_Results : list GeocodeResult;
  GoogleGeocodeResponse_Status : string
}.

Record GooglePlaceSearchResponse := {
  GooglePlaceSearchResponse_Candidates : list Candidate;
  GooglePlaceSearchResponse_Status : string
}.

(** The anonymous element struct of [GoogleNearbySearchResponse.Results]. *)
Record NearbyResult := {
  NearbyResult_Geometry : GoogleGeometry;
  NearbyResult_Icon : string;
  NearbyResult_ID : string;
  NearbyResult_Name : string;
  NearbyResult_OpeningHours : OpeningHour;
  NearbyResult_Photos : list Photo;
  NearbyResult_PlaceID : string;
  NearbyResult_PlusCode : GooglePlusCode;
  NearbyResult_PriceLevel : int;
  NearbyResult_Rating : float64;
  NearbyResult_Reference : string;
  NearbyResult_Scope : string;
  NearbyResult_Types : list string;
  NearbyResult_UserRatingsTotal : int;
  NearbyResult_Vicinity : string
}.

Record GoogleNearbySearchResponse := {
  GoogleNearbySearchResponse_HTMLAttributions : list any;
  GoogleNearbySearchResponse_Results : list NearbyResult;
  GoogleNearbySearchResponse_Status : string
}.

(** [var x T]: the zero value of the three response types. *)
Definition zero_GoogleGeocodeResponse : GoogleGeocodeResponse :=
  {| GoogleGeocodeResponse_Results := [];
     GoogleGeocodeResponse_Status := "" |}.

Definition zero_GooglePlaceSearchResponse : GooglePlaceSearchResponse :=
  {| GooglePlaceSearchResponse_Candidates := [];
     GooglePlaceSearchResponse_Status := "" |}.

Definition zero_GoogleNearbySearchResponse : GoogleNearbySearchResponse :=
  {| GoogleNearbySearchResponse_HTMLAttributions := [];
     GoogleNearbySearchResponse_Results := [];
     GoogleNearbySearchResponse_Status := "" |}.

(** The destination types handed to [json.Unmarshal]. *)
Inductive Schema : Type :=
| GeocodeSchema
| PlaceSearchSchema
| NearbySearchSchema.

Definition schema_type (s : Schema) : Type :=
  match s with
  | GeocodeSchema => GoogleGeocodeResponse
  | PlaceSearchSchema => GooglePlaceSearchResponse
  | NearbySearchSchema => GoogleNearbySearchResponse
  end.

Definition schema_zero (s : Schema) : schema_type s :=
  match s with
  | GeocodeSchema => zero_GoogleGeocodeResponse
  | PlaceSearchSchema => zero_GooglePlaceSearchResponse
  | NearbySearchSchema => zero_GoogleNearbySearchResponse
  end.

(* ===================================================================== *)
(** ** net/url: query values                                              *)
(* ===================================================================== *)

Module url.

(** [type Values map[string][]string] *)
Abbreviation Values := (gmap string (list string)).

(** [func (v Values) Add(key, value string)]:
    [v[key] = append(v[key], value)]. *)
Definition Add (k value : string) (v : Values) : Values :=
  <[k := (default [] (v !! k) ++ [value])%list]> v.

(** [shouldEscape(c, encodeQueryComponent)]: every byte is escaped but
    letters, digits and [-], [_], [.], [~]. *)
Definition shouldEscape (c : ascii) : bool :=
  let n := N_of_ascii c in
  negb (((97 <=? n) && (n <=? 122)) || ((65 <=? n) && (n <=? 90))
        || ((48 <=? n) && (n <=? 57))
        || (n =? 45) || (n =? 95) || (n =? 46) || (n =? 126))%N.

Definition upperhex : string := "0123456789ABCDEF".

Definition hexdigit (d : N) : ascii :=
  default "0"%char (String.get (N.to_nat d) upperhex).

(** [func QueryEscape(s string) string]: a space becomes [+], every
    other escaped byte becomes [%XX]. *)
Fixpoint QueryEscape (s : string) : string :=
  match s with
  | EmptyString => EmptyString
  | String c s' =>
      if Ascii.eqb c " "%char then String "+"%char (QueryEscape s')
      else if shouldEscape c then
        String "%"%char
          (String (hexdigit (N_of_ascii c / 16)%N)
             (String (hexdigit (N_of_ascii c mod 16)%N) (QueryEscape s')))
      else String c (QueryEscape s')
  end.

(** Byte-wise order of strings, the order of [slices.Sort]. *)
Definition string_le (a b : string) : Prop := String.leb a b = true.

#[global] Instance string_le_dec a b : Decision (string_le a b).
Proof. unfold string_le. apply _. Defined.

(** One [key=value] segment of the encoded query. *)
Definition segment (k x : string) : string :=
  QueryEscape k ++ "=" ++ QueryEscape x.

(** The segments [Encode] writes for the keys [keys], in that order. *)
Definition segments (v : Values) (keys : list string) : list string :=
  concat (map (fun k => map (segment k) (default [] (v !! k))) keys).

(** [func (v Values) Encode() string]: the keys are sorted, every value
    of every key is written as [key=value], and the segments are joined
    by [&]. *)
Definition Encode (v : Values) : string :=
  let keys := merge_sort string_le (map fst (map_to_list v)) in
  String.concat "&" (segments v keys).

End url.

(* ===================================================================== *)
(** ** net/http and io/ioutil                                             *)
(* ===================================================================== *)

(** [url.URL], the fields a request for a fixed endpoint carries. *)
Record URL := {
  URL_Scheme : string;
  URL_Host : string;
  URL_Path : string;
  URL_RawQuery : string
}.

(** [http.Request] *)
Record Request := {
  Request_Method : string;
  Request_URL : URL
}.

(** [req.URL.RawQuery = raw] *)
Definition set_RawQuery (req : Request) (raw : string) : Request :=
  {| Request_Method := Request_Method req;
     Request_URL :=
       {| URL_Scheme := URL_Scheme (Request_URL req);
          URL_Host := URL_Host (Request_URL req);
          URL_Path := URL_Path (Request_URL req);
          URL_RawQuery := raw |} |}.

(** [resp.Body], an [io.ReadCloser]: what [ioutil.ReadAll] gets out of
    it, the bytes and the error. *)
Record ReadCloser := {
  rc_data : bytes;
  rc_err : option error
}.

(** [http.Response] *)
Record Response := {
  Response_StatusCode : int;
  Response_Body : ReadCloser
}.

(** [http.StatusOK] *)
Definition http_StatusOK : int := 200.

(** A library call that returns [(value, error)] with a nil value on
    error. *)
Inductive result (A : Type) : Type :=
| Ok (a : A)
| Err (e : error).
Arguments Ok {A} a.
Arguments Err {A} e.

(** What the Go libraries and the upstream service do, for one
    invocation. *)
Record World := {
  (** [http.NewRequest(method, url, nil)] *)
  http_NewRequest : string -> string -> result Request;
  (** [url.ParseQuery], with its error dropped as [URL.Query] does *)
  url_ParseQuery : string -> url.Values;
  (** [client.Do(req)]: the response of the upstream service *)
  net_Do : Request -> result Response;
  (** [json.Unmarshal(data, &v)]: the destination after the call and
      the error *)
  json_Unmarshal : forall s : Schema,
      bytes -> schema_type s -> schema_type s * option error;
  (** [json.Marshal(v)] *)
  json_Marshal : GoogleNearbySearchResponse -> result bytes
}.

(** [func (u *URL) Query() Values] *)
Definition URL_Query (w : World) (u : URL) : url.Values :=
  url_ParseQuery w (URL_RawQuery u).

(* ===================================================================== *)
(** ** Effects: a trace of library calls                                  *)
(* ===================================================================== *)

Inductive Event : Type :=
| EvDo (req : Request)          (** the outbound network call *)
| EvReadAll (b : ReadCloser)    (** the body is read *)
| EvClose (b : ReadCloser).     (** the body is closed *)

(** A computation returns its value and the events it caused, oldest
    first. *)
Definition IO (A : Type) : Type := (list Event * A)%type.

#[global] Instance IO_ret : MRet IO := fun A x => ([], x).
#[global] Instance IO_bind : MBind IO := fun A B f m =>
  let '(t1, a) := m in let '(t2, b) := f a in ((t1 ++ t2)%list, b).

Definition emit (e : Event) : IO unit := ([e], tt).

(** [defer f()]: the event of [f] happens when the rest of the function
    body [m] has returned. *)
Definition defer {A : Type} (e : Event) (m : IO A) : IO A :=
  let '(t, a) := m in ((t ++ [e])%list, a).

Definition trace {A : Type} (m : IO A) : list Event := fst m.
Definition value {A : Type} (m : IO A) : A := snd m.

(** [client.Do(req)] *)
Definition client_Do (w : World) (req : Request) : IO (result Response) :=
  emit (EvDo req);; mret (net_Do w req).

(** [ioutil.ReadAll(body)] *)
Definition ioutil_ReadAll (b : ReadCloser) : IO (bytes * option error) :=
  emit (EvReadAll b);; mret (rc_data b, rc_err b).

(** [context.Context]; the client functions take one and never use it. *)
Definition Context := unit.
Definition context_Background : Context := tt.

(* ===================================================================== *)
(** ** geomap: the three client functions                                 *)
(* ===================================================================== *)

(** [for key, val := range params { q.Add(key, val) }] over the entries
    in the order [entries].  Go ranges over a map in an unspecified order;
    [add_entries_any_order] below shows that the order does not matter. *)
Definition add_entries (entries : list (string * string)) (q : url.Values)
  : url.Values :=
  foldl (fun q kv => url.Add kv.1 kv.2 q) q entries.

Definition range_Add (params : gmap string string) (q : url.Values)
  : url.Values :=
  add_entries (map_to_list params) q.

(** [func GetGeocode(ctx context.Context, params map[string]string)
      (GoogleGeocodeResponse, error)] *)
Definition GetGeocode (w : World) (ctx : Context) (params : gmap string string)
  : IO (GoogleGeocodeResponse * option error) :=
  let googleGeocodeResponse := zero_GoogleGeocodeResponse in
  let reqURL := "https://maps.googleapis.com/maps/api/geocode/json" in
  match http_NewRequest w "GET" reqURL with
  | Err err => mret (googleGeocodeResponse, Some err)
  | Ok req =>
      let q := URL_Query w (Request_URL req) in
      let q := range_Add params q in
      let req := set_RawQuery req (url.Encode q) in
      resp ← client_Do w req;
      match resp with
      | Err err => mret (googleGeocodeResponse, Some err)
      | Ok resp =>
          if decide (Response_StatusCode resp ≠ http_StatusOK) then
            mret (googleGeocodeResponse, Some (errors_New "Status not OK"))
          else
            defer (EvClose (Response_Body resp))
              ('(contents, err) ← ioutil_ReadAll (Response_Body resp);
               match err with
               | Some err => mret (googleGeocodeResponse, Some err)
               | None =>
                   let '(googleGeocodeResponse, err) :=
                     json_Unmarshal w GeocodeSchema contents
                       googleGeocodeResponse in
                   match err with
                   | Some err => mret (googleGeocodeResponse, Some err)
                   | None => mret (googleGeocodeResponse, None)
                   end
               end)
      end
  end.

(** [func FindPlace(ctx context.Context, params map[string]string)
      (GooglePlaceSearchResponse, error)] *)
Definition FindPlace (w : World) (ctx : Context) (params : gmap string string)
  : IO (GooglePlaceSearchResponse * option error) :=
  let googleFindPlaceResponse := zero_GooglePlaceSearchResponse in
  let reqURL :=
    "https://maps.googleapis.com/maps/api/place/findplacefromtext/json" in
  match http_NewRequest w "GET" reqURL with
  | Err err => mret (googleFindPlaceResponse, Some err)
  | Ok req =>
      let q := URL_Query w (Request_URL req) in
      let q := range_Add params q in
      let req := set_RawQuery req (url.Encode q) in
      resp ← client_Do w req;
      match resp with
      | Err err => mret (googleFindPlaceResponse, Some err)
      | Ok resp =>
          if decide (Response_StatusCode resp ≠ http_StatusOK) then
            mret (googleFindPlaceResponse, Some (errors_New "Status not OK"))
          else
            defer (EvClose (Response_Body resp))
              ('(contents, err) ← ioutil_ReadAll (Response_Body resp);
               match err with
               | Some err => mret (googleFindPlaceResponse, Some err)
               | None =>
                   let '(googleFindPlaceResponse, err) :=
                     json_Unmarshal w PlaceSearchSchema contents
                       googleFindPlaceResponse in
                   match err with
                   | Some err => mret (googleFindPlaceResponse, Some err)
                   | None => mret (googleFindPlaceResponse, None)
                   end
               end)
      end
  end.

(** [func PlaceNearby(ctx context.Context, params map[string]string)
      (GoogleNearbySearchResponse, error)] *)
Definition PlaceNearby (w : World) (ctx : Context) (params : gmap string string)
  : IO (GoogleNearbySearchResponse * option error) :=
  let googleNearbySearchResponse := zero_GoogleNearbySearchResponse in
  let reqURL :=
    "https://maps.googleapis.com/maps/api/place/nearbysearch/json" in
  match http_NewRequest w "GET" reqURL with
  | Err err => mret (googleNearbySearchResponse, Some err)
  | Ok req =>
      let q := URL_Query w (Request_URL req) in
      let q := range_Add params q in
      let req := set_RawQuery req (url.Encode q) in
      resp ← client_Do w req;
      match resp with
      | Err err => mret (googleNearbySearchResponse, Some err)
      | Ok resp =>
          if decide (Response_StatusCode resp ≠ http_StatusOK) then
            mret (googleNearbySearchResponse, Some (errors_New "Status not OK"))
          else
            defer (EvClose (Response_Body resp))
              ('(contents, err) ← ioutil_ReadAll (Response_Body resp);
               match err with
               | Some err => mret (googleNearbySearchResponse, Some err)
               | None =>
                   let '(googleNearbySearchResponse, err) :=
                     json_Unmarshal w NearbySearchSchema contents
                       googleNearbySearchResponse in
                   match err with
                   | Some err => mret (googleNearbySearchResponse, Some err)
                   | None => mret (googleNearbySearchResponse, None)
                   end
               end)
      end
  end.

(** The three functions under one name, indexed by their destination
    type, and the endpoint each of them names in [reqURL]. *)
Definition client (s : Schema) (w : World) (ctx : Context)
    (params : gmap string string) : IO (schema_type s * option error) :=
  match s with
  | GeocodeSchema => GetGeocode w ctx params
  | PlaceSearchSchema => FindPlace w ctx params
  | NearbySearchSchema => PlaceNearby w ctx params
  end.

Definition endpoint (s : Schema) : string :=
  match s with
  | GeocodeSchema => "https://maps.googleapis.com/maps/api/geocode/json"
  | PlaceSearchSchema =>
      "https://maps.googleapis.com/maps/api/place/findplacefromtext/json"
  | NearbySearchSchema =>
      "https://maps.googleapis.com/maps/api/place/nearbysearch/json"
  end.

(** The request handed to [client.Do] when [http.NewRequest] returned
    [req]: [req] with the encoded values as its raw query. *)
Definition sent_request (w : World) (params : gmap string string)
    (req : Request) : Request :=
  set_RawQuery req
    (url.Encode (range_Add params (URL_Query w (Request_URL req)))).

(** The events that are outbound network calls. *)
Definition is_Do (e : Event) : bool :=
  match e with
  | EvDo _ => true
  | _ => false
  end.

Definition is_Close (e : Event) : bool :=
  match e with
  | EvClose _ => true
  | _ => false
  end.

(** The sorted key list [Encode] walks through when every key of
    [params] carries its one value. *)
Definition sorted_keys (params : gmap string string) : list string :=
  merge_sort url.string_le (map_to_list ((fun v => [v]) <$> params)).*1.

(** What a run of the primitive comes to, outcome by outcome. *)
Definition outcome (w : World) (target : string) (s : Schema)
    (params : gmap string string) : IO (schema_type s * option error) :=
  match http_NewRequest w "GET" target with
  | Err e => ([], (schema_zero s, Some e))
  | Ok req =>
      let sent := sent_request w params req in
      match net_Do w sent with
      | Err e => ([EvDo sent], (schema_zero s, Some e))
      | Ok resp =>
          let b := Response_Body resp in
          if decide (Response_StatusCode resp = 200) then
            ([EvDo sent; EvReadAll b; EvClose b],
             match rc_err b with
             | Some e => (schema_zero s, Some e)
             | None => json_Unmarshal w s (rc_data b) (schema_zero s)
             end)
          else
            ([EvDo sent], (schema_zero s, Some (errors_New "Status not OK")))
      end
  end.

(* ===================================================================== *)
(** ** getnearbylocation: the handler                                     *)
(* ===================================================================== *)

(** [key := "API KEY HERE"] *)
Definition key : string := "API KEY HERE".

(** The statements of [Handler] up to the call of [geomap.PlaceNearby]:
    the three reads of the query string, the map literal and the guarded
    assignment of ["name"]. *)
Definition Handler_geoParams (request : APIGatewayProxyRequest)
  : gmap string string :=
  let location := Go.index (QueryStringParameters request) "location" in
  let radius := Go.index (QueryStringParameters request) "radius" in
  let name := Go.index (QueryStringParameters request) "name" in
  let geoParams : gmap string string :=
    <["location" := location]> (<["radius" := radius]> (<["key" := key]> ∅)) in
  if decide (name ≠ "") then <["name" := name]> geoParams else geoParams.


(** [jsonString, _ := json.Marshal(v)] followed by [string(jsonString)]:
    the error is dropped, and a nil slice converts to the empty string. *)
Definition discard_err (r : result bytes) : string :=
  match r with
  | Ok b => b
  | Err _ => ""
  end.

(** [func Handler(request events.APIGatewayProxyRequest)
      (events.APIGatewayProxyResponse, error)] *)
Definition Handler (w : World) (request : APIGatewayProxyRequest)
  : IO (APIGatewayProxyResponse * option error) :=
  let ctx := context_Background in
  let geoParams := Handler_geoParams request in
  '(googleResp, err) ← PlaceNearby w ctx geoParams;
  match err with
  | Some err => mret (mkResponse "Error" 400, Some err)
  | None =>
      let jsonString := discard_err (json_Marshal w googleResp) in
      mret (mkResponse jsonString 200, None)
  end.

(* ===================================================================== *)
(** ** The outbound query client, as the specification words it           *)
(* ===================================================================== *)

(** Written from the specification (section 4.1), not from the code: one
    primitive, parameterised by the target URL and the destination schema,
    that runs the steps "build request, attach encoded query, execute,
    check status equals 200, read body, JSON-decode" and stops at the first
    step that fails.  It is compared with the three functions above. *)
Module Spec.

(** Run [k] on the value of a step, or stop with the step's error and
    the zero value [z]. *)
Definition and_then {A B : Type} (z : B) (r : result A)
    (k : A -> IO (B * option error)) : IO (B * option error) :=
  match r with
  | Ok a => k a
  | Err e => mret (z, Some e)
  end.

Definition build_request (w : World) (target : string) : result Request :=
  http_NewRequest w "GET" target.

Definition attach_query (w : World) (params : gmap string string)
    (req : Request) : Request :=
  set_RawQuery req
    (url.Encode (range_Add params (URL_Query w (Request_URL req)))).

Definition check_status (resp : Response) : result Response :=
  if decide (Response_StatusCode resp = 200) then Ok resp
  else Err (errors_New "Status not OK").

Definition read_body (b : ReadCloser) : IO (result bytes) :=
  r ← ioutil_ReadAll b;
  mret (match r.2 with
        | None => Ok r.1
        | Some e => Err e
        end).

Definition decode (w : World) (s : Schema) (contents : bytes)
  : schema_type s * option error :=
  json_Unmarshal w s contents (schema_zero s).

Definition outbound_call (w : World) (target : string) (s : Schema)
    (params : gmap string string) : IO (schema_type s * option error) :=
  let z := schema_zero s in
  and_then z (build_request w target) (fun req =>
    resp ← client_Do w (attach_query w params req);
    and_then z resp (fun resp =>
      and_then z (check_status resp) (fun resp =>
        defer (EvClose (Response_Body resp))
          (contents ← read_body (Response_Body resp);
           and_then z contents (fun contents =>
             mret (decode w s contents)))))).

End Spec.

(* ===================================================================== *)
(** ** A stub upstream, for running the code on concrete inputs           *)
(* ===================================================================== *)

Module Stub.

(** The double quote character. *)
Definition dq : string := String (ascii_of_nat 34) EmptyString.

(** The request [http.NewRequest] builds for one of the three fixed
    endpoints: scheme and host are cut off the front, and there is no
    query. *)
Definition NewRequest (method target : string) : result Request :=
  Ok {| Request_Method := method;
        Request_URL :=
          {| URL_Scheme := "https";
             URL_Host := "maps.googleapis.com";
             URL_Path := String.substring 27 (String.length target - 27)
                           target;
             URL_RawQuery := "" |} |}.

(** A decoder that hands back [decoded] for every schema-conforming
    body and keeps the destination as it is otherwise. *)
Definition Unmarshal (decoded : GoogleNearbySearchResponse)
    (derr : option error) (s : Schema) (data : bytes)
  : schema_type s -> schema_type s * option error :=
  match s with
  | NearbySearchSchema => fun _ => (decoded, derr)
  | _ => fun v => (v, derr)
  end.

(** An encoder that writes the status field only. *)
Definition Marshal (v : GoogleNearbySearchResponse) : result bytes :=
  Ok ("{" ++ dq ++ "status" ++ dq ++ ":" ++ dq
        ++ GoogleNearbySearchResponse_Status v ++ dq ++ "}").

(** The upstream answers every request with [resp]. *)
Definition world (resp : result Response)
    (decoded : GoogleNearbySearchResponse) (derr : option error) : World :=
  {| http_NewRequest := NewRequest;
     url_ParseQuery := fun _ => ∅;
     net_Do := fun _ => resp;
     json_Unmarshal := Unmarshal decoded derr;
     json_Marshal := Marshal |}.

Definition ok_payload : GoogleNearbySearchResponse :=
  {| GoogleNearbySearchResponse_HTMLAttributions := [];
     GoogleNearbySearchResponse_Results := [];
     GoogleNearbySearchResponse_Status := "OK" |}.

Definition body (data : bytes) : ReadCloser :=
  {| rc_data := data; rc_err := None |}.

(** HTTP 200 with a well-formed payload. *)
Definition world_ok : World :=
  world (Ok {| Response_StatusCode := 200; Response_Body := body "{}" |})
    ok_payload None.

(** HTTP 500. *)
Definition world_500 : World :=
  world (Ok {| Response_StatusCode := 500;
               Response_Body := body "Internal Server Error" |})
    ok_payload None.

(** The connection fails. *)
Definition world_down : World :=
  world (Err (libError "net/url" "dial tcp: connection refused"))
    ok_payload None.

(** HTTP 200, and the body breaks off while it is read. *)
Definition world_cut : World :=
  world (Ok {| Response_StatusCode := 200;
               Response_Body :=
                 {| rc_data := "{";
                    rc_err := Some (libError "io" "unexpected EOF") |} |})
    ok_payload None.

(** HTTP 200 with a body that is not JSON. *)
Definition world_garbled : World :=
  world (Ok {| Response_StatusCode := 200; Response_Body := body "<html>" |})
    zero_GoogleNearbySearchResponse
    (Some (libError "encoding/json" "invalid character '<'")).

Definition request (qs : list (string * string)) : APIGatewayProxyRequest :=
  {| QueryStringParameters := list_to_map qs |}.

Definition coffee : APIGatewayProxyRequest :=
  request [("location", "-6.2,106.8"); ("radius", "500"); ("name", "coffee")].

Definition no_name : APIGatewayProxyRequest :=
  request [("location", "-6.2,106.8"); ("radius", "500"); ("name", "")].

Definition bare : APIGatewayProxyRequest := request [].

End Stub.

(* ===================================================================== *)
(** ** Query values: the loop over the parameter mapping                  *)
(* ===================================================================== *)

Section QueryValues.

Implicit Types (q : url.Values) (params : gmap string string).
Implicit Types (k v : string) (l : list (string * string)).

Lemma Add_lookup k v q k' :
  url.Add k v q !! k' =
    if decide (k = k') then Some (default [] (q !! k) ++ [v])%list
    else q !! k'.
Proof. unfold url.Add. apply lookup_insert. Qed.

(** Each key of a duplicate-free entry list gets its one value appended;
    every other key is left alone. *)
Lemma add_entries_lookup l q k :
  NoDup l.*1 ->
  add_entries l q !! k =
    match (list_to_map l : gmap string string) !! k with
    | Some v => Some (default [] (q !! k) ++ [v])%list
    | None => q !! k
    end.
Proof.
  revert q. induction l as [|[k0 v0] l IH]; intros q Hnd; simpl.
  - by rewrite lookup_empty.
  - apply NoDup_cons in Hnd as [Hk0 Hnd].
    unfold add_entries in IH |- *. simpl. rewrite (IH _ Hnd).
    rewrite !Add_lookup. destruct (decide (k0 = k)) as [->|Hne].
    + rewrite lookup_insert_eq.
      by rewrite (not_elem_of_list_to_map_1 _ _ Hk0).
    + rewrite lookup_insert_ne by done.
      by destruct (list_to_map l !! k).
Qed.

Lemma range_Add_lookup params q k :
  range_Add params q !! k =
    match params !! k with
    | Some v => Some (default [] (q !! k) ++ [v])%list
    | None => q !! k
    end.
Proof.
  unfold range_Add.
  rewrite add_entries_lookup by apply NoDup_fst_map_to_list.
  by rewrite list_to_map_to_list.
Qed.

(** The order in which Go ranges over [params] does not matter. *)
Lemma add_entries_any_order params q l :
  l ≡ₚ map_to_list params -> add_entries l q = range_Add params q.
Proof.
  intros Hp. apply map_eq; intros k.
  assert (NoDup l.*1) as Hnd.
  { rewrite Hp. apply NoDup_fst_map_to_list. }
  rewrite add_entries_lookup, range_Add_lookup by done.
  rewrite (list_to_map_proper l (map_to_list params) Hnd Hp).
  by rewrite list_to_map_to_list.
Qed.

(** Started from no values, the loop leaves exactly one value per key. *)
Lemma range_Add_empty params :
  range_Add params ∅ = (fun v => [v]) <$> params.
Proof.
  apply map_eq; intros k.
  rewrite range_Add_lookup, lookup_fmap, lookup_empty.
  by destruct (params !! k).
Qed.

End QueryValues.

(* ===================================================================== *)
(** ** Query values: the encoded query string                             *)
(* ===================================================================== *)

Section Encode.

Implicit Types (params : gmap string string) (keys : list string).

#[local] Instance string_le_total : Total url.string_le.
Proof. intros a b. apply String.leb_total. Qed.

Lemma segments_singletons params keys :
  Forall (fun k => is_Some (params !! k)) keys ->
  url.segments ((fun v => [v]) <$> params) keys =
    map (fun k => url.segment k (Go.index params k)) keys.
Proof.
  unfold url.segments, Go.index.
  induction 1 as [|k keys [x Hx] _ IH]; simpl; [done|].
  rewrite IH, lookup_fmap, Hx. reflexivity.
Qed.

Lemma sorted_keys_Permutation params :
  sorted_keys params ≡ₚ (map_to_list params).*1.
Proof.
  unfold sorted_keys. rewrite merge_sort_Permutation, map_to_list_fmap.
  rewrite <- list_fmap_compose. reflexivity.
Qed.

Lemma sorted_keys_Sorted params : Sorted url.string_le (sorted_keys params).
Proof. apply (Sorted_merge_sort _). Qed.

Lemma sorted_keys_NoDup params : NoDup (sorted_keys params).
Proof.
  rewrite sorted_keys_Permutation. apply NoDup_fst_map_to_list.
Qed.

Lemma elem_of_sorted_keys params k :
  k ∈ sorted_keys params <-> is_Some (params !! k).
Proof.
  rewrite sorted_keys_Permutation, list_elem_of_fmap. split.
  - intros [[k' v] [-> Hin]]. apply elem_of_map_to_list in Hin. eauto.
  - intros [v Hv]. exists (k, v). split; [done|].
    by apply elem_of_map_to_list.
Qed.

(** With one value per key, the encoded query is one [key=value] segment
    per key of [params], in key order. *)
Lemma Encode_singletons params :
  url.Encode ((fun v => [v]) <$> params) =
    String.concat "&"
      (map (fun k => url.segment k (Go.index params k)) (sorted_keys params)).
Proof.
  unfold url.Encode. fold (sorted_keys params).
  rewrite segments_singletons; [done|].
  apply Forall_forall. intros k. apply elem_of_sorted_keys.
Qed.

End Encode.

(* ===================================================================== *)
(** ** The client functions: one control flow                             *)
(* ===================================================================== *)

Section ControlFlow.

Variable w : World.
Implicit Types (ctx : Context) (params : gmap string string) (s : Schema).

Lemma GetGeocode_outbound_call ctx params :
  GetGeocode w ctx params =
    Spec.outbound_call w (endpoint GeocodeSchema) GeocodeSchema params.
Proof.
  unfold GetGeocode, Spec.outbound_call, Spec.build_request, Spec.and_then,
    Spec.attach_query, endpoint.
  destruct (http_NewRequest w _ _) as [req|e]; [|done].
  cbv zeta. unfold client_Do, emit. simpl.
  destruct (net_Do w _) as [resp|e]; [|done].
  unfold Spec.check_status, http_StatusOK.
  destruct (decide (Response_StatusCode resp ≠ 200)) as [Hne|He];
    destruct (decide (Response_StatusCode resp = 200)) as [He'|Hne'];
    try done; try (by destruct He).
  unfold Spec.read_body, Spec.decode, ioutil_ReadAll, emit. simpl.
  destruct (rc_err (Response_Body resp)) as [e|]; [done|].
  by destruct (json_Unmarshal w GeocodeSchema _ _) as [v [e|]].
Qed.

Lemma FindPlace_outbound_call ctx params :
  FindPlace w ctx params =
    Spec.outbound_call w (endpoint PlaceSearchSchema) PlaceSearchSchema params.
Proof.
  unfold FindPlace, Spec.outbound_call, Spec.build_request, Spec.and_then,
    Spec.attach_query, endpoint.
  destruct (http_NewRequest w _ _) as [req|e]; [|done].
  cbv zeta. unfold client_Do, emit. simpl.
  destruct (net_Do w _) as [resp|e]; [|done].
  unfold Spec.check_status, http_StatusOK.
  destruct (decide (Response_StatusCode resp ≠ 200)) as [Hne|He];
    destruct (decide (Response_StatusCode resp = 200)) as [He'|Hne'];
    try done; try (by destruct He).
  unfold Spec.read_body, Spec.decode, ioutil_ReadAll, emit. simpl.
  destruct (rc_err (Response_Body resp)) as [e|]; [done|].
  by destruct (json_Unmarshal w PlaceSearchSchema _ _) as [v [e|]].
Qed.

Lemma PlaceNearby_outbound_call ctx params :
  PlaceNearby w ctx params =
    Spec.outbound_call w (endpoint NearbySearchSchema) NearbySearchSchema
      params.
Proof.
  unfold PlaceNearby, Spec.outbound_call, Spec.build_request, Spec.and_then,
    Spec.attach_query, endpoint.
  destruct (http_NewRequest w _ _) as [req|e]; [|done].
  cbv zeta. unfold client_Do, emit. simpl.
  destruct (net_Do w _) as [resp|e]; [|done].
  unfold Spec.check_status, http_StatusOK.
  destruct (decide (Response_StatusCode resp ≠ 200)) as [Hne|He];
    destruct (decide (Response_StatusCode resp = 200)) as [He'|Hne'];
    try done; try (by destruct He).
  unfold Spec.read_body, Spec.decode, ioutil_ReadAll, emit. simpl.
  destruct (rc_err (Response_Body resp)) as [e|]; [done|].
  by destruct (json_Unmarshal w NearbySearchSchema _ _) as [v [e|]].
Qed.

Lemma client_outbound_call s ctx params :
  client s w ctx params = Spec.outbound_call w (endpoint s) s params.
Proof.
  destruct s; simpl.
  - apply GetGeocode_outbound_call.
  - apply FindPlace_outbound_call.
  - apply PlaceNearby_outbound_call.
Qed.

Lemma outbound_call_outcome target s params :
  Spec.outbound_call w target s params = outcome w target s params.
Proof.
  unfold Spec.outbound_call, outcome, Spec.build_request, Spec.and_then,
    Spec.attach_query, sent_request.
  destruct (http_NewRequest w _ _) as [req|e]; [|done].
  cbv zeta. unfold client_Do, emit. simpl.
  destruct (net_Do w _) as [resp|e]; [|done].
  unfold Spec.check_status.
  destruct (decide (Response_StatusCode resp = 200)) as [He|Hne]; [|done].
  unfold Spec.read_body, Spec.decode, ioutil_ReadAll, emit. simpl.
  destruct (rc_err (Response_Body resp)) as [e|]; [done|].
  by destruct (json_Unmarshal w s _ _) as [v [e|]].
Qed.

Lemma client_outcome s ctx params :
  client s w ctx params = outcome w (endpoint s) s params.
Proof. by rewrite client_outbound_call, outbound_call_outcome. Qed.

End ControlFlow.

(* ===================================================================== *)
(** ** The outbound query client                                          *)
(* ===================================================================== *)

(** C2.  Each of the three client functions returns a decoded structure
    and a nil error exactly when the request was built and sent, the
    upstream status is 200, the body was read, and [json.Unmarshal] decoded
    it without error.  Every status other than 200 gives the zero structure
    and the one error [errors.New("Status not OK")], whatever the status
    code and the body are.  A failure to build the request, of the
    transport, of the body read or of the decoder comes back as that step's
    own error, unchanged; and there is at most one network call, so nothing
    is retried. *)
Theorem client_result (s : Schema) (w : World) (ctx : Context)
    (params : gmap string string) :
  (forall v,
      value (client s w ctx params) = (v, None) <->
      exists req resp,
        http_NewRequest w "GET" (endpoint s) = Ok req
        /\ net_Do w (sent_request w params req) = Ok resp
        /\ Response_StatusCode resp = 200
        /\ rc_err (Response_Body resp) = None
        /\ json_Unmarshal w s (rc_data (Response_Body resp)) (schema_zero s)
           = (v, None))
  /\ (forall req resp,
        http_NewRequest w "GET" (endpoint s) = Ok req ->
        net_Do w (sent_request w params req) = Ok resp ->
        Response_StatusCode resp <> 200 ->
        value (client s w ctx params)
        = (schema_zero s, Some (errors_New "Status not OK")))
  /\ (forall e,
        http_NewRequest w "GET" (endpoint s) = Err e ->
        value (client s w ctx params) = (schema_zero s, Some e))
  /\ (forall req e,
        http_NewRequest w "GET" (endpoint s) = Ok req ->
        net_Do w (sent_request w params req) = Err e ->
        value (client s w ctx params) = (schema_zero s, Some e))
  /\ (forall req resp e,
        http_NewRequest w "GET" (endpoint s) = Ok req ->
        net_Do w (sent_request w params req) = Ok resp ->
        Response_StatusCode resp = 200 ->
        rc_err (Response_Body resp) = Some e ->
        value (client s w ctx params) = (schema_zero s, Some e))
  /\ (forall req resp v e,
        http_NewRequest w "GET" (endpoint s) = Ok req ->
        net_Do w (sent_request w params req) = Ok resp ->
        Response_StatusCode resp = 200 ->
        rc_err (Response_Body resp) = None ->
        json_Unmarshal w s (rc_data (Response_Body resp)) (schema_zero s)
        = (v, Some e) ->
        value (client s w ctx params) = (v, Some e))
  /\ (length (filter is_Do (trace (client s w ctx params))) <= 1)%nat.
Proof.
  rewrite client_outcome. unfold outcome, value, trace.
  repeat apply conj.
  - intros v. split.
    + destruct (http_NewRequest w _ _) as [req|e]; [|done].
      cbv zeta. destruct (net_Do w _) as [resp|e] eqn:Hdo; [|done].
      destruct (decide _) as [Hs|Hs]; [|done]. simpl.
      destruct (rc_err _) as [e|] eqn:Hrd; [done|].
      intros Hv. exists req, resp. done.
    + intros (req & resp & -> & Hdo & Hs & Hrd & Hv). cbv zeta.
      rewrite Hdo. destruct (decide _) as [_|Hne]; [|done]. simpl.
      by rewrite Hrd.
  - intros req resp -> Hdo Hs. cbv zeta. rewrite Hdo.
    by destruct (decide _).
  - by intros e ->.
  - intros req e -> Hdo. cbv zeta. by rewrite Hdo.
  - intros req resp e -> Hdo Hs Hrd. cbv zeta. rewrite Hdo.
    destruct (decide _); [|done]. simpl. by rewrite Hrd.
  - intros req resp v e -> Hdo Hs Hrd Hv. cbv zeta. rewrite Hdo.
    destruct (decide _); [|done]. simpl. by rewrite Hrd.
  - destruct (http_NewRequest w _ _) as [req|e]; [|simpl; lia].
    cbv zeta. destruct (net_Do w _) as [resp|e]; [|simpl; lia].
    destruct (decide _); simpl; lia.
Qed.

(** C5.  When [http.NewRequest("GET", endpoint)] gives a request with no
    query of its own, the one request a client function sends is that
    request, still aimed at the same scheme, host and path, with a raw
    query made of exactly one [key=value] segment per key of the mapping,
    in key order and joined by [&]: each key of [params] occurs once, with
    the value [params] holds for it, and nothing else is attached.  A key
    written twice into the mapping holds the later value. *)
Theorem client_request (s : Schema) (w : World) (ctx : Context)
    (params : gmap string string) (req : Request) :
  http_NewRequest w "GET" (endpoint s) = Ok req ->
  URL_Query w (Request_URL req) = ∅ ->
  let keys := sorted_keys params in
  let sent :=
    set_RawQuery req
      (String.concat "&"
         (map (fun k => url.segment k (Go.index params k)) keys)) in
  (exists rest,
      trace (client s w ctx params) = EvDo sent :: rest
      /\ forall r, EvDo r ∉ rest)
  /\ Request_Method sent = Request_Method req
  /\ URL_Scheme (Request_URL sent) = URL_Scheme (Request_URL req)
  /\ URL_Host (Request_URL sent) = URL_Host (Request_URL req)
  /\ URL_Path (Request_URL sent) = URL_Path (Request_URL req)
  /\ keys ≡ₚ (map_to_list params).*1
  /\ NoDup keys
  /\ Sorted url.string_le keys
  /\ (forall k, k ∈ keys <-> is_Some (params !! k))
  /\ (forall k v, params !! k = Some v -> Go.index params k = v)
  /\ (forall (m : gmap string string) k v1 v2,
        params = <[k := v2]> (<[k := v1]> m) -> Go.index params k = v2).
Proof.
  intros Hreq Hq keys sent.
  assert (sent_request w params req = sent) as Hsent.
  { unfold sent_request, sent, keys.
    by rewrite Hq, range_Add_empty, Encode_singletons. }
  repeat apply conj; try reflexivity.
  - rewrite client_outcome. unfold outcome, trace. rewrite Hreq. cbv zeta.
    rewrite Hsent. destruct (net_Do w sent) as [resp|e].
    + destruct (decide _); simpl; eexists; (split; [reflexivity|]);
        intros r Hin; repeat (apply elem_of_cons in Hin as [Hin|Hin]; [done|]);
        by apply elem_of_nil in Hin.
    + simpl. eexists. split; [reflexivity|]. intros r Hin.
      by apply elem_of_nil in Hin.
  - apply sorted_keys_Permutation.
  - apply sorted_keys_NoDup.
  - apply sorted_keys_Sorted.
  - apply elem_of_sorted_keys.
  - intros k v Hk. unfold Go.index. by rewrite Hk.
  - intros m k v1 v2 ->. unfold Go.index. by rewrite lookup_insert_eq.
Qed.

(** The nearby search of the stub upstream, for a request that names
    coffee shops. *)
Lemma client_request_witness :
  let w := Stub.world_ok in
  let params := Handler_geoParams Stub.coffee in
  exists req rest,
    http_NewRequest w "GET" (endpoint NearbySearchSchema) = Ok req
    /\ trace (client NearbySearchSchema w context_Background params)
       = EvDo (set_RawQuery req
           "key=API+KEY+HERE&location=-6.2%2C106.8&name=coffee&radius=500")
           :: rest
    /\ forall r, EvDo r ∉ rest.
Proof.
  intros w params.
  destruct (http_NewRequest w "GET" (endpoint NearbySearchSchema))
    as [req|e] eqn:Hreq; [|discriminate Hreq].
  destruct (client_request NearbySearchSchema w context_Background params req
              Hreq eq_refl) as [[rest [Htr Hrest]] _].
  exists req, rest. split; [reflexivity|]. split; [|exact Hrest].
  rewrite Htr. f_equal.
Defined.

(** Once the status check has passed, the body is read and then closed,
    whatever the read and the decoder return. *)
Lemma client_closes_after_read (s : Schema) (w : World) (ctx : Context)
    (params : gmap string string) (req : Request) (resp : Response) :
  http_NewRequest w "GET" (endpoint s) = Ok req ->
  net_Do w (sent_request w params req) = Ok resp ->
  Response_StatusCode resp = 200 ->
  trace (client s w ctx params) =
    [EvDo (sent_request w params req);
     EvReadAll (Response_Body resp);
     EvClose (Response_Body resp)].
Proof.
  intros Hreq Hdo Hs. rewrite client_outcome. unfold outcome, trace.
  rewrite Hreq. cbv zeta. rewrite Hdo. by destruct (decide _).
Qed.

(** On a status other than 200 the function returns before its [defer]
    statement: the body it received is never closed. *)
Lemma client_leaks_on_status (s : Schema) (w : World) (ctx : Context)
    (params : gmap string string) (req : Request) (resp : Response) :
  http_NewRequest w "GET" (endpoint s) = Ok req ->
  net_Do w (sent_request w params req) = Ok resp ->
  Response_StatusCode resp <> 200 ->
  trace (client s w ctx params) = [EvDo (sent_request w params req)]
  /\ filter is_Close (trace (client s w ctx params)) = [].
Proof.
  intros Hreq Hdo Hs. rewrite client_outcome. unfold outcome, trace.
  rewrite Hreq. cbv zeta. rewrite Hdo. by destruct (decide _).
Qed.

(** C6.  [PlaceNearby] against an upstream that answers HTTP 500: one
    network call is made, a response with a body comes back, and the trace
    ends there.  No close of that body is recorded, while the same request
    against an upstream that answers 200 ends with the close. *)
Theorem PlaceNearby_status_500_leaves_body_open :
  let params := Handler_geoParams Stub.coffee in
  let run := PlaceNearby Stub.world_500 context_Background params in
  exists req resp,
    trace run = [EvDo req]
    /\ net_Do Stub.world_500 req = Ok resp
    /\ Response_StatusCode resp = 500
    /\ (EvClose (Response_Body resp) ∉ trace run)
    /\ value run
       = (zero_GoogleNearbySearchResponse, Some (errors_New "Status not OK"))
    /\ filter is_Close
         (trace (PlaceNearby Stub.world_ok context_Background params))
       = [EvClose (Stub.body "{}")].
Proof.
  intros params run. eexists _, _.
  split; [reflexivity|]. split; [reflexivity|]. split; [reflexivity|].
  split; [|split; reflexivity].
  intros Hin. apply elem_of_cons in Hin as [Hin|Hin]; [discriminate Hin|].
  by apply elem_of_nil in Hin.
Qed.

(** C7.  [GetGeocode], [FindPlace] and [PlaceNearby] are the one
    primitive of the specification, run with their own endpoint and their
    own destination type: for every upstream and every mapping, value and
    trace are the same. *)
Theorem three_clients_one_control_flow (w : World) (ctx : Context)
    (params : gmap string string) :
  GetGeocode w ctx params
  = Spec.outbound_call w
      "https://maps.googleapis.com/maps/api/geocode/json"
      GeocodeSchema params
  /\ FindPlace w ctx params
     = Spec.outbound_call w
         "https://maps.googleapis.com/maps/api/place/findplacefromtext/json"
         PlaceSearchSchema params
  /\ PlaceNearby w ctx params
     = Spec.outbound_call w
         "https://maps.googleapis.com/maps/api/place/nearbysearch/json"
         NearbySearchSchema params.
Proof.
  split; [|split].
  - apply GetGeocode_outbound_call.
  - apply FindPlace_outbound_call.
  - apply PlaceNearby_outbound_call.
Qed.

(* ===================================================================== *)
(** ** The handler                                                        *)
(* ===================================================================== *)

Section HandlerFacts.

Implicit Types (w : World) (request : APIGatewayProxyRequest).

Lemma Handler_geoParams_name_empty request :
  Go.index (QueryStringParameters request) "name" = "" ->
  Handler_geoParams request =
    <["location" := Go.index (QueryStringParameters request) "location"]>
      (<["radius" := Go.index (QueryStringParameters request) "radius"]>
         (<["key" := key]> ∅)).
Proof.
  intros Hn. unfold Handler_geoParams. rewrite Hn.
  destruct (decide ("" ≠ "")) as [Hne|_]; [congruence|reflexivity].
Qed.

Lemma Handler_geoParams_name_given request :
  Go.index (QueryStringParameters request) "name" ≠ "" ->
  Handler_geoParams request =
    <["name" := Go.index (QueryStringParameters request) "name"]>
      (<["location" := Go.index (QueryStringParameters request) "location"]>
         (<["radius" := Go.index (QueryStringParameters request) "radius"]>
            (<["key" := key]> ∅))).
Proof.
  intros Hn. unfold Handler_geoParams.
  destruct (decide _) as [_|Hne]; [reflexivity|contradiction].
Qed.

(** The handler is the nearby search on its parameter mapping, followed
    by the shaping of the envelope; it adds no event of its own. *)
Lemma Handler_unfold w request :
  Handler w request =
    let run := PlaceNearby w context_Background (Handler_geoParams request) in
    (trace run,
     match (value run).2 with
     | Some err => (mkResponse "Error" 400, Some err)
     | None =>
         (mkResponse (discard_err (json_Marshal w (value run).1)) 200, None)
     end).
Proof.
  unfold Handler. cbv zeta.
  destruct (PlaceNearby w _ _) as [t [v [e|]]]; simpl;
    by rewrite app_nil_r.
Qed.

End HandlerFacts.

Ltac by_key k s :=
  destruct (decide (k = s)) as [->|?]; [tauto|].

(** C1.  The mapping the handler passes on holds the inbound [location]
    and [radius] and the access key under "location", "radius" and "key";
    it holds "name" exactly when the inbound [name] is not the empty
    string, and then with that value; it holds no other key.  With an empty
    [name] there is no "name" key, and with the name "coffee" the mapping is
    name -> "coffee" next to location, radius and key. *)
Theorem Handler_geoParams_spec (request : APIGatewayProxyRequest) :
  let qs := QueryStringParameters request in
  let m := Handler_geoParams request in
  m !! "location" = Some (Go.index qs "location")
  /\ m !! "radius" = Some (Go.index qs "radius")
  /\ m !! "key" = Some key
  /\ (Go.index qs "name" ≠ "" <-> m !! "name" = Some (Go.index qs "name"))
  /\ (Go.index qs "name" ≠ "" <-> is_Some (m !! "name"))
  /\ (forall k, is_Some (m !! k) ->
        k = "location" \/ k = "radius" \/ k = "key" \/ k = "name")
  /\ (Go.index qs "name" = "" -> m !! "name" = None)
  /\ (Go.index qs "name" = "coffee" ->
        m = <["name" := "coffee"]>
              (<["location" := Go.index qs "location"]>
                 (<["radius" := Go.index qs "radius"]>
                    (<["key" := key]> ∅)))).
Proof.
  intros qs m. subst m qs.
  destruct (decide (Go.index (QueryStringParameters request) "name" = ""))
    as [He|Hne].
  - rewrite (Handler_geoParams_name_empty _ He). rewrite He.
    repeat split; try (by simplify_map_eq); try congruence.
    all: try (intros [v Hv]; by simplify_map_eq).
    intros k [v Hv]. by_key k "location". by_key k "radius". by_key k "key".
    by simplify_map_eq.
  - rewrite (Handler_geoParams_name_given _ Hne).
    repeat split; try (by simplify_map_eq); try congruence.
    all: try (intros k [v Hv]; by_key k "name"; by_key k "location";
              by_key k "radius"; by_key k "key"; by simplify_map_eq).
    all: try (intros ->; reflexivity).
Qed.

(** The two requests of the specification's test list. *)
Example Handler_geoParams_empty_name :
  Handler_geoParams Stub.no_name !! "name" = None
  /\ Handler_geoParams Stub.no_name
     = list_to_map
         [("location", "-6.2,106.8"); ("radius", "500"); ("key", key)].
Proof. split; reflexivity. Qed.

Example Handler_geoParams_coffee :
  Handler_geoParams Stub.coffee !! "name" = Some "coffee"
  /\ Handler_geoParams Stub.coffee !! "location" = Some "-6.2,106.8"
  /\ Handler_geoParams Stub.coffee !! "radius" = Some "500"
  /\ Handler_geoParams Stub.coffee !! "key" = Some "API KEY HERE"
  /\ size (Handler_geoParams Stub.coffee) = 4%nat.
Proof. repeat split; reflexivity. Qed.

(** C3.  Whenever the nearby search returns an error, the handler answers
    with status code 400 and the body "Error" and hands the same error to
    the runtime.  The envelope is the same for the five ways the search can
    fail: the request cannot be built, the transport fails, the status is
    not 200, the body cannot be read, the body does not decode. *)
Theorem Handler_failure (w : World) (request : APIGatewayProxyRequest) :
  let m := Handler_geoParams request in
  let target := endpoint NearbySearchSchema in
  let failed e := value (Handler w request) = (mkResponse "Error" 400, Some e) in
  (forall v e,
      value (PlaceNearby w context_Background m) = (v, Some e) -> failed e)
  /\ (forall e, http_NewRequest w "GET" target = Err e -> failed e)
  /\ (forall req e,
        http_NewRequest w "GET" target = Ok req ->
        net_Do w (sent_request w m req) = Err e -> failed e)
  /\ (forall req resp,
        http_NewRequest w "GET" target = Ok req ->
        net_Do w (sent_request w m req) = Ok resp ->
        Response_StatusCode resp <> 200 ->
        failed (errors_New "Status not OK"))
  /\ (forall req resp e,
        http_NewRequest w "GET" target = Ok req ->
        net_Do w (sent_request w m req) = Ok resp ->
        Response_StatusCode resp = 200 ->
        rc_err (Response_Body resp) = Some e -> failed e)
  /\ (forall req resp v e,
        http_NewRequest w "GET" target = Ok req ->
        net_Do w (sent_request w m req) = Ok resp ->
        Response_StatusCode resp = 200 ->
        rc_err (Response_Body resp) = None ->
        json_Unmarshal w NearbySearchSchema (rc_data (Response_Body resp))
          zero_GoogleNearbySearchResponse = (v, Some e) ->
        failed e).
Proof.
  intros m target failed. subst failed. cbv beta.
  rewrite Handler_unfold. cbv zeta. fold m.
  change (PlaceNearby w context_Background m)
    with (client NearbySearchSchema w context_Background m).
  rewrite client_outcome. unfold outcome, value. fold target.
  repeat apply conj.
  - by intros v e ->.
  - by intros e ->.
  - intros req e -> Hdo. cbv zeta. by rewrite Hdo.
  - intros req resp -> Hdo Hs. cbv zeta. rewrite Hdo. by destruct (decide _).
  - intros req resp e -> Hdo Hs Hrd. cbv zeta. rewrite Hdo.
    destruct (decide _); [|done]. simpl. by rewrite Hrd.
  - intros req resp v e -> Hdo Hs Hrd Hv. cbv zeta. rewrite Hdo.
    destruct (decide _); [|done]. simpl. rewrite Hrd. simpl in Hv.
    by rewrite Hv.
Qed.

(** An upstream that answers HTTP 500. *)
Lemma Handler_failure_witness :
  value (Handler Stub.world_500 Stub.coffee)
  = (mkResponse "Error" 400, Some (errors_New "Status not OK")).
Proof.
  apply (proj1 (Handler_failure Stub.world_500 Stub.coffee)
           zero_GoogleNearbySearchResponse).
  reflexivity.
Defined.

(** The other failures of the stub upstream give the same envelope. *)
Example Handler_failures_look_alike :
  (value (Handler Stub.world_down Stub.coffee)).1 = mkResponse "Error" 400
  /\ (value (Handler Stub.world_500 Stub.coffee)).1 = mkResponse "Error" 400
  /\ (value (Handler Stub.world_cut Stub.coffee)).1 = mkResponse "Error" 400
  /\ (value (Handler Stub.world_garbled Stub.coffee)).1
     = mkResponse "Error" 400.
Proof. repeat split; reflexivity. Qed.

(** C4.  Whenever the nearby search returns a structure and no error, the
    handler answers with status code 200, no error, and as body the bytes
    [json.Marshal] returns for that structure. *)
Theorem Handler_success (w : World) (request : APIGatewayProxyRequest)
    (v : GoogleNearbySearchResponse) :
  value (PlaceNearby w context_Background (Handler_geoParams request))
  = (v, None) ->
  value (Handler w request)
  = (mkResponse (discard_err (json_Marshal w v)) 200, None)
  /\ StatusCode (value (Handler w request)).1 = 200
  /\ (value (Handler w request)).2 = None
  /\ (forall b, json_Marshal w v = Ok b ->
        Body (value (Handler w request)).1 = b).
Proof.
  intros Hv. rewrite Handler_unfold. cbv zeta. rewrite Hv. simpl.
  repeat split. by intros b ->.
Qed.

(** An upstream that answers HTTP 200 with a well-formed payload. *)
Lemma Handler_success_witness :
  value (Handler Stub.world_ok Stub.coffee)
  = (mkResponse (discard_err (Stub.Marshal Stub.ok_payload)) 200, None)
  /\ Body (value (Handler Stub.world_ok Stub.coffee)).1
     = "{" ++ Stub.dq ++ "status" ++ Stub.dq ++ ":" ++ Stub.dq ++ "OK"
         ++ Stub.dq ++ "}".
Proof.
  destruct (Handler_success Stub.world_ok Stub.coffee Stub.ok_payload eq_refl)
    as (Hval & _ & _ & Hbody).
  split; [exact Hval|]. apply Hbody. reflexivity.
Defined.

(** C9.  The handler validates nothing.  A [location] or [radius] that is
    missing from the query string is passed on as the empty string: both
    keys are always in the mapping.  For every request the run of the
    handler is the run of the nearby search on that mapping, and as soon as
    the request can be built it is sent. *)
Theorem Handler_no_validation (w : World) (request : APIGatewayProxyRequest) :
  let qs := QueryStringParameters request in
  let m := Handler_geoParams request in
  (qs !! "location" = None -> m !! "location" = Some "")
  /\ (qs !! "radius" = None -> m !! "radius" = Some "")
  /\ is_Some (m !! "location")
  /\ is_Some (m !! "radius")
  /\ trace (Handler w request) = trace (PlaceNearby w context_Background m)
  /\ (forall req,
        http_NewRequest w "GET" (endpoint NearbySearchSchema) = Ok req ->
        exists rest,
          trace (Handler w request) = EvDo (sent_request w m req) :: rest).
Proof.
  intros qs m.
  assert (m !! "location" = Some (Go.index qs "location")
          /\ m !! "radius" = Some (Go.index qs "radius")) as [Hl Hr].
  { subst m qs. unfold Handler_geoParams. cbv zeta.
    destruct (decide _); by simplify_map_eq. }
  repeat apply conj.
  - intros Hn. rewrite Hl. unfold Go.index. by rewrite Hn.
  - intros Hn. rewrite Hr. unfold Go.index. by rewrite Hn.
  - rewrite Hl. eauto.
  - rewrite Hr. eauto.
  - by rewrite Handler_unfold.
  - intros req Hreq. rewrite Handler_unfold. cbv zeta. fold m.
    change (PlaceNearby w context_Background m)
      with (client NearbySearchSchema w context_Background m).
    rewrite client_outcome. unfold outcome, trace. rewrite Hreq. cbv zeta.
    destruct (net_Do w _) as [resp|e]; [|by eexists].
    destruct (decide _); by eexists.
Qed.

(** A request with no query string at all still reaches the upstream. *)
Lemma Handler_no_validation_witness :
  Handler_geoParams Stub.bare !! "location" = Some ""
  /\ Handler_geoParams Stub.bare !! "radius" = Some ""
  /\ exists req rest,
       trace (Handler Stub.world_ok Stub.bare) = EvDo req :: rest
       /\ URL_RawQuery (Request_URL req)
          = "key=API+KEY+HERE&location=&radius=".
Proof.
  destruct (Handler_no_validation Stub.world_ok Stub.bare)
    as (Hl & Hr & _ & _ & _ & Hsent).
  split; [exact (Hl eq_refl)|]. split; [exact (Hr eq_refl)|].
  destruct (Hsent _ eq_refl) as [rest Hrest].
  eexists _, rest. split; [exact Hrest|reflexivity].
Defined.

(** C10.  The handler's status code is 200 or 400.  Its error is nil
    exactly when the code is 200; with any other code the error is the one
    [PlaceNearby] returned and the body is "Error".  When [PlaceNearby]
    succeeds the answer is 200 with a nil error whatever [json.Marshal]
    returns, its error being dropped.  The body is empty only if
    [PlaceNearby] succeeded and [json.Marshal] handed back no bytes; so it
    is non-empty as soon as [json.Marshal] encodes the decoded structure,
    to at least a pair of braces. *)
Theorem Handler_envelope (w : World) (request : APIGatewayProxyRequest) :
  let run := PlaceNearby w context_Background (Handler_geoParams request) in
  let r := value (Handler w request) in
  (StatusCode r.1 = 200 \/ StatusCode r.1 = 400)
  /\ (r.2 = None <-> StatusCode r.1 = 200)
  /\ (StatusCode r.1 <> 200 -> r.2 = (value run).2 /\ Body r.1 = "Error")
  /\ ((value run).2 = None ->
        StatusCode r.1 = 200 /\ r.2 = None
        /\ Body r.1 = discard_err (json_Marshal w (value run).1))
  /\ (Body r.1 = "" <->
        (value run).2 = None
        /\ discard_err (json_Marshal w (value run).1) = "")
  /\ (((value run).2 = None ->
       exists b, json_Marshal w (value run).1 = Ok b /\ b <> "") ->
      Body r.1 <> "").
Proof.
  intros run r. subst r. rewrite Handler_unfold. cbv zeta. fold run.
  clearbody run. destruct run as [t [v [e|]]]; unfold value; simpl;
    repeat apply conj; try done; try (by right); try (by left);
    try (by intros [? ?]).
  intros Hm. destruct (Hm eq_refl) as (b & -> & Hb). done.
Qed.

(** With the stub upstream the body is the encoded payload. *)
Lemma Handler_envelope_witness :
  Body (value (Handler Stub.world_ok Stub.coffee)).1 <> ""
  /\ StatusCode (value (Handler Stub.world_ok Stub.coffee)).1 = 200.
Proof.
  destruct (Handler_envelope Stub.world_ok Stub.coffee)
    as (_ & _ & _ & Hok & _ & Hbody).
  split.
  - apply Hbody. intros _. eexists. split; [reflexivity|discriminate].
  - apply (Hok eq_refl).
Defined.

(* ===================================================================== *)
(** ** Further properties of the client functions                         *)
(* ===================================================================== *)

(** X1.  Go ranges over [params] in an order it does not fix.  Whatever
    order the loop [for key, val := range params { q.Add(key, val) }]
    takes, it builds the same query values, and the request that is sent
    is the same. *)
Theorem range_order_irrelevant (w : World) (params : gmap string string)
    (req : Request) (l1 l2 : list (string * string)) :
  l1 ≡ₚ map_to_list params ->
  l2 ≡ₚ map_to_list params ->
  add_entries l1 (URL_Query w (Request_URL req))
  = add_entries l2 (URL_Query w (Request_URL req))
  /\ set_RawQuery req
       (url.Encode (add_entries l1 (URL_Query w (Request_URL req))))
     = sent_request w params req.
Proof.
  intros H1 H2. unfold sent_request.
  by rewrite (add_entries_any_order _ _ _ H1),
    (add_entries_any_order _ _ _ H2).
Qed.

(** Two orders of the entries of a two-key mapping. *)
Lemma range_order_irrelevant_witness :
  let params : gmap string string :=
    <["radius" := "500"]> (<["key" := "k"]> ∅) in
  let q0 : url.Values := ∅ in
  add_entries [("radius", "500"); ("key", "k")] q0
  = add_entries [("key", "k"); ("radius", "500")] q0.
Proof.
  intros params q0.
  assert ([("key", "k"); ("radius", "500")] ≡ₚ map_to_list params) as H2.
  { vm_compute. apply Permutation_refl. }
  assert ([("radius", "500"); ("key", "k")] ≡ₚ map_to_list params) as H1.
  { vm_compute. apply perm_swap. }
  exact (proj1 (range_order_irrelevant Stub.world_ok params
                  {| Request_Method := "GET";
                     Request_URL := {| URL_Scheme := "https";
                                       URL_Host := "maps.googleapis.com";
                                       URL_Path := "/maps/api/geocode/json";
                                       URL_RawQuery := "" |} |}
                  _ _ H1 H2)).
Defined.

(** X2.  The loop adds and never sets: a key of [params] gets its value
    appended after the values the request's query already holds for it,
    and a key that is not in [params] keeps exactly the values it had. *)
Theorem range_Add_appends (params : gmap string string) (q : url.Values)
    (k : string) :
  (forall v, params !! k = Some v ->
     range_Add params q !! k = Some (default [] (q !! k) ++ [v])%list)
  /\ (params !! k = None -> range_Add params q !! k = q !! k)
  /\ (forall x, x ∈ default [] (q !! k) ->
        x ∈ default [] (range_Add params q !! k))
  /\ (length (default [] (range_Add params q !! k))
      <= S (length (default [] (q !! k))))%nat.
Proof.
  rewrite range_Add_lookup. destruct (params !! k) as [v|]; simpl.
  - repeat split; try done.
    + by intros v' [= ->].
    + intros x Hx. apply elem_of_app. by left.
    + rewrite length_app. simpl. lia.
  - repeat split; try done. lia.
Qed.

(** A request query that already names a language keeps it. *)
Lemma range_Add_appends_witness :
  let params : gmap string string := <["language" := "id"]> ∅ in
  let q : url.Values := <["language" := ["en"]]> ∅ in
  range_Add params q !! "language" = Some ["en"; "id"]
  /\ range_Add params q !! "radius" = None.
Proof.
  intros params q.
  destruct (range_Add_appends params q "language") as (Hin & _).
  destruct (range_Add_appends params q "radius") as (_ & Hout & _).
  split; [exact (Hin "id" eq_refl)|exact (Hout eq_refl)].
Defined.

(** X3.  A run of a client function leaves one of three traces.  Nothing
    happens when the request cannot be built.  One network call and
    nothing else happens when the transport fails or the status is not
    200: the body of such a response is neither read nor closed.  On
    status 200 the call is followed by one read of the body and one close
    of the same body, in that order. *)
Theorem client_trace_protocol (s : Schema) (w : World) (ctx : Context)
    (params : gmap string string) :
  let t := trace (client s w ctx params) in
  (t = [] /\ exists e, http_NewRequest w "GET" (endpoint s) = Err e)
  \/ (exists req,
        http_NewRequest w "GET" (endpoint s) = Ok req
        /\ t = [EvDo (sent_request w params req)]
        /\ ((exists e, net_Do w (sent_request w params req) = Err e)
            \/ (exists resp,
                  net_Do w (sent_request w params req) = Ok resp
                  /\ Response_StatusCode resp <> 200)))
  \/ (exists req resp,
        http_NewRequest w "GET" (endpoint s) = Ok req
        /\ net_Do w (sent_request w params req) = Ok resp
        /\ Response_StatusCode resp = 200
        /\ t = [EvDo (sent_request w params req);
                EvReadAll (Response_Body resp);
                EvClose (Response_Body resp)]).
Proof.
  intros t. subst t. rewrite client_outcome. unfold outcome, trace.
  destruct (http_NewRequest w _ _) as [req|e]; [|left; eauto].
  right. cbv zeta.
  destruct (net_Do w _) as [resp|e] eqn:Hdo.
  - destruct (decide (Response_StatusCode resp = 200)) as [Hs|Hs].
    + right. exists req, resp. by rewrite Hdo.
    + left. exists req. rewrite Hdo. eauto 10.
  - left. exists req. rewrite Hdo. eauto 10.
Qed.

(* ===================================================================== *)
(** ** Further properties of the handler                                  *)
(* ===================================================================== *)

(** X4.  The handler reads [location], [radius] and [name] and nothing
    else.  Two requests that agree on these three, a missing parameter
    counting as the empty string, get the same answer and cause the same
    outbound call: no other inbound parameter is passed on, and an inbound
    [key] does not replace the access key. *)
Theorem Handler_reads_three_parameters (w : World)
    (request1 request2 : APIGatewayProxyRequest) :
  (forall k, k ∈ ["location"; "radius"; "name"] ->
     Go.index (QueryStringParameters request1) k
     = Go.index (QueryStringParameters request2) k) ->
  Handler_geoParams request1 = Handler_geoParams request2
  /\ Handler w request1 = Handler w request2.
Proof.
  intros Hsame.
  assert (Handler_geoParams request1 = Handler_geoParams request2) as Hm.
  { unfold Handler_geoParams.
    rewrite (Hsame "location"), (Hsame "radius"), (Hsame "name");
      [done|set_solver..]. }
  split; [exact Hm|]. unfold Handler. by rewrite Hm.
Qed.

(** A request that also brings a key and a language, and leaves out the
    empty name, is answered like the plain one. *)
Lemma Handler_reads_three_parameters_witness :
  let noisy :=
    Stub.request [("location", "-6.2,106.8"); ("radius", "500");
                  ("key", "someone else's key"); ("language", "id")] in
  Handler_geoParams noisy = Handler_geoParams Stub.no_name
  /\ Handler Stub.world_ok noisy = Handler Stub.world_ok Stub.no_name.
Proof.
  intros noisy.
  apply (Handler_reads_three_parameters Stub.world_ok noisy Stub.no_name).
  intros k Hk.
  apply elem_of_cons in Hk as [->|Hk]; [reflexivity|].
  apply elem_of_cons in Hk as [->|Hk]; [reflexivity|].
  apply elem_of_cons in Hk as [->|Hk]; [reflexivity|].
  by apply elem_of_nil in Hk.
Defined.

(** X5.  The handler answers 200 exactly when the request was built and
    sent, the upstream answered 200, the body was read and it decoded
    without error; its answer is then the encoding of the decoded
    structure with a nil error.  In every other case it answers 400. *)
Theorem Handler_ok_iff (w : World) (request : APIGatewayProxyRequest) :
  let m := Handler_geoParams request in
  let r := value (Handler w request) in
  (StatusCode r.1 = 200 <->
   exists req resp v,
     http_NewRequest w "GET" (endpoint NearbySearchSchema) = Ok req
     /\ net_Do w (sent_request w m req) = Ok resp
     /\ Response_StatusCode resp = 200
     /\ rc_err (Response_Body resp) = None
     /\ json_Unmarshal w NearbySearchSchema (rc_data (Response_Body resp))
          zero_GoogleNearbySearchResponse = (v, None)
     /\ r = (mkResponse (discard_err (json_Marshal w v)) 200, None))
  /\ (StatusCode r.1 <> 200 -> StatusCode r.1 = 400).
Proof.
  intros m r. subst r. rewrite Handler_unfold. cbv zeta. fold m.
  change (PlaceNearby w context_Background m)
    with (client NearbySearchSchema w context_Background m).
  rewrite client_outcome. unfold outcome, value.
  destruct (http_NewRequest w _ _) as [req|e]; cbv zeta.
  2: { simpl. split; [|done]. split; [done|].
       by intros (? & ? & ? & [=] & _). }
  destruct (net_Do w _) as [resp|e] eqn:Hdo.
  2: { simpl. split; [|done]. split; [done|].
       intros (req' & ? & ? & [= <-] & Hdo' & _). congruence. }
  destruct (decide (Response_StatusCode resp = 200)) as [Hs|Hs].
  2: { simpl. split; [|done]. split; [done|].
       intros (req' & resp' & ? & [= <-] & Hdo' & Hs' & _). congruence. }
  simpl. destruct (rc_err (Response_Body resp)) as [e|] eqn:Hrd.
  { simpl. split; [|done]. split; [done|].
    intros (req' & resp' & ? & [= <-] & Hdo' & _ & Hrd' & _). congruence. }
  simpl in *.
  destruct (json_Unmarshal w NearbySearchSchema _ _) as [v [e|]] eqn:Hv; simpl.
  - split; [|done]. split; [done|].
    intros (req' & resp' & v' & [= <-] & Hdo' & _ & _ & Hv' & _).
    assert (resp' = resp) as -> by congruence. simpl in Hv'. congruence.
  - split; [|done]. split; [|done].
    intros _. exists req, resp, v. simpl. done.
Qed.

(** X6.  The query string the handler sends upstream.  When the request
    for the nearby-search endpoint is built without a query of its own,
    the raw query is the access key, the location, the name if it is not
    empty, and the radius, in this order, each value escaped. *)
Theorem Handler_raw_query (w : World) (request : APIGatewayProxyRequest)
    (req : Request) :
  http_NewRequest w "GET" (endpoint NearbySearchSchema) = Ok req ->
  URL_Query w (Request_URL req) = ∅ ->
  let location := Go.index (QueryStringParameters request) "location" in
  let radius := Go.index (QueryStringParameters request) "radius" in
  let name := Go.index (QueryStringParameters request) "name" in
  let raw :=
    if decide (name = "") then
      "key=API+KEY+HERE&location=" ++ url.QueryEscape location
        ++ "&radius=" ++ url.QueryEscape radius
    else
      "key=API+KEY+HERE&location=" ++ url.QueryEscape location
        ++ "&name=" ++ url.QueryEscape name
        ++ "&radius=" ++ url.QueryEscape radius in
  exists rest,
    trace (Handler w request) = EvDo (set_RawQuery req raw) :: rest
    /\ forall r, EvDo r ∉ rest.
Proof.
  intros Hreq Hq location radius name raw.
  assert (sent_request w (Handler_geoParams request) req
          = set_RawQuery req raw) as Hsent.
  { unfold sent_request. rewrite Hq, range_Add_empty, Encode_singletons.
    f_equal. subst raw. destruct (decide (name = "")) as [He|Hne].
    - rewrite (Handler_geoParams_name_empty _ He).
      fold location radius. reflexivity.
    - rewrite (Handler_geoParams_name_given _ Hne).
      fold location radius name. reflexivity. }
  rewrite Handler_unfold. cbv zeta.
  change (PlaceNearby w context_Background (Handler_geoParams request))
    with (client NearbySearchSchema w context_Background
            (Handler_geoParams request)).
  rewrite client_outcome. unfold outcome, trace. rewrite Hreq. cbv zeta.
  rewrite Hsent. clearbody raw. simpl.
  destruct (net_Do w _) as [resp|e]; [destruct (decide _)|]; simpl;
    eexists; (split; [reflexivity|]); intros r Hin;
    repeat (apply elem_of_cons in Hin as [Hin|Hin]; [done|]);
    by apply elem_of_nil in Hin.
Qed.

(** The stub upstream, asked for coffee shops and asked with no name. *)
Lemma Handler_raw_query_witness :
  exists req rest1 rest2,
    trace (Handler Stub.world_ok Stub.coffee)
    = EvDo (set_RawQuery req
        "key=API+KEY+HERE&location=-6.2%2C106.8&name=coffee&radius=500")
        :: rest1
    /\ trace (Handler Stub.world_ok Stub.no_name)
       = EvDo (set_RawQuery req
           "key=API+KEY+HERE&location=-6.2%2C106.8&radius=500")
           :: rest2.
Proof.
  destruct (http_NewRequest Stub.world_ok "GET" (endpoint NearbySearchSchema))
    as [req|e] eqn:Hreq; [|discriminate Hreq].
  destruct (Handler_raw_query Stub.world_ok Stub.coffee req Hreq eq_refl)
    as [rest1 [H1 _]].
  destruct (Handler_raw_query Stub.world_ok Stub.no_name req Hreq eq_refl)
    as [rest2 [H2 _]].
  exists req, rest1, rest2. split; [exact H1|exact H2].
Defined.
